(** * sts_assume_role: a shallow embedding of [cloud/amazon/sts_assume_role.py]

    The module builds the keyword arguments of one [client.assume_role]
    call from the module parameters, performs the call, and reports
    either the credentials or a failure through the module runtime.

    Python values are embedded as they are at run time: dynamically typed,
    with dictionaries as finite maps keyed by strings.  The collaborators
    that live outside the file ([AnsibleModule], [ec2_argument_spec],
    [get_aws_connection_info], [boto3_conn] and the STS client) are
    fields of a [World] record. *)

From Stdlib Require Import ZArith.
From stdpp Require Import gmap strings list fin_maps.

Local Open Scope string_scope.
Local Open Scope list_scope.

(** ** Python values *)

(** [botocore.exceptions.ClientError]: [str(e)] is its message. *)
Record ClientError := { err_message : string }.

#[local] Unset Elimination Schemes.
Inductive pyval :=
  | PNone
  | PBool (b : bool)
  | PInt (z : Z)
  | PStr (s : string)
  | PDict (d : gmap string pyval)
  | PExc (e : ClientError).
#[local] Set Elimination Schemes.

(** [str(e)] for a [ClientError]. *)
Definition str_ClientError (e : ClientError) : string := err_message e.

(** Whether a value is, or holds somewhere inside, an exception object:
    what a report to the module runtime cannot carry. *)
Fixpoint holds_exception (v : pyval) : bool :=
  match v with
  | PExc _ => true
  | PDict d => map_fold (fun _ x found => holds_exception x || found) false d
  | _ => false
  end.

(** Truth value of an object, as tested by [if region:]. *)
Definition truthy (v : pyval) : bool :=
  match v with
  | PNone => false
  | PBool b => b
  | PInt z => negb (z =? 0)%Z
  | PStr s => negb (String.eqb s "")
  | PDict d => negb (bool_decide (d = ∅))
  | PExc _ => true
  end.

(** [v is not None] *)
Definition is_not_None (v : pyval) : bool :=
  match v with
  | PNone => false
  | _ => true
  end.

(** [d.get(k)]: the value under [k], [None] when the key is missing. *)
Definition dict_get (d : gmap string pyval) (k : string) : pyval :=
  default PNone (d !! k).

(** ** The module object *)

(** What the file uses of an [AnsibleModule] instance: [module.params]. *)
Record Module := { params : gmap string pyval }.

(** ** Request construction (lines 99-121 of [assume_role_policy]) *)

Definition request_args (module : Module) : gmap string pyval :=
  let args : gmap string pyval :=
    <["RoleSessionName" := dict_get (params module) "role_session_name"]>
      {[ "RoleArn" := dict_get (params module) "role_arn" ]} in
  let policy := dict_get (params module) "policy" in
  let args := if is_not_None policy then <["Policy" := policy]> args else args in
  let duration_seconds := dict_get (params module) "duration_seconds" in
  let args := if is_not_None duration_seconds
              then <["DurationSeconds" := duration_seconds]> args else args in
  let external_id := dict_get (params module) "external_id" in
  let args := if is_not_None external_id
              then <["ExternalId" := external_id]> args else args in
  let mfa_serial_number := dict_get (params module) "mfa_serial_number" in
  let args := if is_not_None mfa_serial_number
              then <["SerialNumber" := mfa_serial_number]> args else args in
  let mfa_token := dict_get (params module) "mfa_token" in
  let args := if is_not_None mfa_token
              then <["TokenCode" := mfa_token]> args else args in
  args.

(** ** Effects

    A run leaves a trace of the calls it makes to its collaborators, and
    ends in one of three ways: it returns, it leaves the process through
    a report of [exit_json] or [fail_json] (both end in [sys.exit]), or
    it raises. *)

Inductive event :=
  | EvConnInfo
  | EvBoto3Conn (conn_type resource : string) (region endpoint : pyval)
                (kwargs : gmap string pyval)
  | EvAssumeRole (args : gmap string pyval).

Inductive exn :=
  | ExClientError (e : ClientError)
  | ExKeyError (k : string)
  | ExTypeError
  | ExOther (name : string).

Inductive outcome :=
  | ExitJson (kwargs : gmap string pyval)
  | FailJson (kwargs : gmap string pyval).

Inductive res (A : Type) :=
  | Ret (a : A)
  | Exit (o : outcome)
  | Raise (x : exn).
Arguments Ret {A} a.
Arguments Exit {A} o.
Arguments Raise {A} x.

Definition M (A : Type) : Type := list event -> res A * list event.

#[export] Instance M_ret : MRet M := fun A a t => (Ret a, t).

#[export] Instance M_bind : MBind M := fun A B k m t =>
  match m t with
  | (Ret a, t') => k a t'
  | (Exit o, t') => (Exit o, t')
  | (Raise x, t') => (Raise x, t')
  end.

Definition raise {A} (x : exn) : M A := fun t => (Raise x, t).

(** [try: body / except ClientError as e: handler(e)].  Only a
    [ClientError] is caught; [SystemExit] and other exceptions pass. *)
Definition try_except_ClientError {A} (body : M A) (handler : ClientError -> M A) : M A :=
  fun t =>
    match body t with
    | (Raise (ExClientError e), t') => handler e t'
    | r => r
    end.

(** [module.exit_json], called with keyword arguments, prints the report
    and leaves the process. *)
Definition exit_json {A} (module : Module) (kwargs : gmap string pyval) : M A :=
  fun t => (Exit (ExitJson kwargs), t).

(** [module.fail_json], called with keyword arguments.  The runtime goes
    through the values before it prints the report and leaves the
    process: strings, numbers, booleans, [None] and containers of these
    pass; an exception object raises [TypeError], and no report is
    made. *)
Definition fail_json_result {A} (kwargs : gmap string pyval) : res A :=
  if holds_exception (PDict kwargs)
  then Raise ExTypeError
  else Exit (FailJson kwargs).

Definition fail_json {A} (module : Module) (kwargs : gmap string pyval) : M A :=
  fun t => (fail_json_result kwargs, t).

(** [v[k]] *)
Definition getitem (v : pyval) (k : string) : M pyval :=
  match v with
  | PDict d =>
      match d !! k with
      | Some x => mret x
      | None => raise (ExKeyError k)
      end
  | _ => raise ExTypeError
  end.

(** ** Collaborators *)

(** The STS client: [client.assume_role], called with the request as
    keyword arguments, returns the response dictionary or raises. *)
Record Client := { assume_role : gmap string pyval -> exn + pyval }.

Record World := {
  (** whether [import boto3] succeeded *)
  HAS_BOTO3 : bool;
  (** [ec2_argument_spec()]: the shared connection options *)
  ec2_argument_spec : gmap string pyval;
  (** [AnsibleModule(argument_spec=...)]: the module object, or the
      keyword arguments of the [fail_json] the constructor ends in *)
  AnsibleModule : gmap string pyval -> gmap string pyval + Module;
  (** [get_aws_connection_info(module, boto3=True)]: the region, the
      endpoint and the remaining connection arguments *)
  get_aws_connection_info : Module -> pyval * pyval * gmap string pyval;
  (** [boto3_conn(module, conn_type, resource, region, endpoint, ...)] *)
  boto3_conn : Module -> string -> string -> pyval -> pyval ->
               gmap string pyval -> exn + Client
}.

Definition of_sum {A} (r : exn + A) : res A :=
  match r with
  | inl x => Raise x
  | inr a => Ret a
  end.

Definition call_assume_role (client : Client) (args : gmap string pyval) : M pyval :=
  fun t => (of_sum (assume_role client args), t ++ [EvAssumeRole args]).

Definition call_AnsibleModule (w : World) (argument_spec : gmap string pyval) : M Module :=
  fun t =>
    match AnsibleModule w argument_spec with
    | inl kwargs => (Exit (FailJson kwargs), t)
    | inr module => (Ret module, t)
    end.

Definition call_get_aws_connection_info (w : World) (module : Module)
  : M (pyval * pyval * gmap string pyval) :=
  fun t => (Ret (get_aws_connection_info w module), t ++ [EvConnInfo]).

Definition call_boto3_conn (w : World) (module : Module) (conn_type resource : string)
    (region endpoint : pyval) (kwargs : gmap string pyval) : M Client :=
  fun t => (of_sum (boto3_conn w module conn_type resource region endpoint kwargs),
            t ++ [EvBoto3Conn conn_type resource region endpoint kwargs]).

(** ** [assume_role_policy(client, module)] *)

Definition assume_role_policy (client : Client) (module : Module) : M unit :=
  let args := request_args module in
  let changed := false in
  '(assumed_role, changed) ←
     try_except_ClientError
       (assumed_role ← call_assume_role client args;
        mret (assumed_role, true))
       (fun e => fail_json module {[ "msg" := PExc e ]});
  access_key ← (c ← getitem assumed_role "Credentials"; getitem c "AccessKeyId");
  secret_key ← (c ← getitem assumed_role "Credentials"; getitem c "SecretAccessKey");
  session_token ← (c ← getitem assumed_role "Credentials"; getitem c "SessionToken");
  expiration ← (c ← getitem assumed_role "Credentials"; getitem c "Expiration");
  let sts_creds : gmap string pyval :=
    {[ "access_key" := access_key;
       "secret_key" := secret_key;
       "session_token" := session_token;
       "expiration" := expiration ]} in
  arn ← (u ← getitem assumed_role "AssumedRoleUser"; getitem u "Arn");
  assume_role_id ← (u ← getitem assumed_role "AssumedRoleUser"; getitem u "AssumedRoleId");
  let sts_user : gmap string pyval :=
    {[ "arn" := arn;
       "assume_role_id" := assume_role_id ]} in
  exit_json module
    {[ "changed" := PBool changed;
       "sts_creds" := PDict sts_creds;
       "sts_user" := PDict sts_user ]}.

(** ** [main()] *)

(** The options [main] adds to the shared argument spec (lines 146-154). *)
Definition role_argument_spec : gmap string pyval :=
  {[ "role_arn" := PDict {[ "required" := PBool true; "default" := PNone ]};
     "role_session_name" := PDict {[ "required" := PBool true; "default" := PNone ]};
     "duration_seconds" :=
       PDict {[ "required" := PBool false; "default" := PNone; "type" := PStr "int" ]};
     "external_id" := PDict {[ "required" := PBool false; "default" := PNone ]};
     "policy" := PDict {[ "required" := PBool false; "default" := PNone ]};
     "mfa_serial_number" := PDict {[ "required" := PBool false; "default" := PNone ]};
     "mfa_token" := PDict {[ "required" := PBool false; "default" := PNone ]} ]}.

(** [d.update(other)]: the keys of [other] win. *)
Definition dict_update (d other : gmap string pyval) : gmap string pyval :=
  other ∪ d.

(** The argument spec [main] hands to [AnsibleModule] (lines 144-155). *)
Definition argument_spec (w : World) : gmap string pyval :=
  dict_update (ec2_argument_spec w) role_argument_spec.

Definition main (w : World) : M unit :=
  module ← call_AnsibleModule w (argument_spec w);
  _ ← (if negb (HAS_BOTO3 w)
       then fail_json module {[ "msg" := PStr "boto3 required for this module" ]}
       else mret tt);
  '(region, ec2_url, aws_connect_kwargs) ← call_get_aws_connection_info w module;
  client ←
    (if truthy region
     then try_except_ClientError
            (call_boto3_conn w module "client" "sts" region ec2_url aws_connect_kwargs)
            (fun e => fail_json module {[ "msg" := PStr (str_ClientError e) ]})
     else fail_json module {[ "msg" := PStr "region must be specified" ]});
  try_except_ClientError
    (assume_role_policy client module)
    (fun e => fail_json module {[ "msg" := PExc e ]}).

(** ** Observations on a run *)

Definition run {A} (m : M A) : res A * list event := m [].

Definition is_assume_role (e : event) : bool :=
  match e with
  | EvAssumeRole _ => true
  | _ => false
  end.

(** Number of [client.assume_role] calls in a trace. *)
Definition assume_role_calls (t : list event) : nat :=
  length (List.filter is_assume_role t).

(** ** A reference runtime, to run the model on concrete invocations

    [reference_AnsibleModule raw spec] honours what an argument spec
    declares per option, and nothing else: a [required] option must be
    given, a missing option takes its [default], an option of [type]
    ['int'] must hold an integer, and an option the spec does not
    declare is refused. *)

Definition option_field (opt : pyval) (k : string) : pyval :=
  match opt with
  | PDict d => dict_get d k
  | _ => PNone
  end.

Definition argument_ok (raw : gmap string pyval) (name : string) (opt : pyval) : bool :=
  match dict_get raw name with
  | PNone => negb (truthy (option_field opt "required"))
  | PInt _ => true
  | _ =>
      match option_field opt "type" with
      | PStr ty => negb (String.eqb ty "int")
      | _ => true
      end
  end.

Definition argument_value (raw : gmap string pyval) (name : string) (opt : pyval) : pyval :=
  match dict_get raw name with
  | PNone => option_field opt "default"
  | v => v
  end.

Definition reference_params (raw argument_spec : gmap string pyval)
  : gmap string pyval :=
  map_imap (fun name opt => Some (argument_value raw name opt)) argument_spec.

Definition reference_AnsibleModule (raw argument_spec : gmap string pyval)
  : gmap string pyval + Module :=
  if bool_decide (dom raw ⊆ dom argument_spec)
     && forallb (fun '(name, opt) => argument_ok raw name opt) (map_to_list argument_spec)
  then inr {| params := reference_params raw argument_spec |}
  else inl {[ "msg" := PStr "invalid module arguments" ]}.

(** The response of the scenario in the module's documentation. *)
Definition sample_response : pyval :=
  PDict
    {[ "Credentials" :=
         PDict {[ "AccessKeyId" := PStr "AK1";
                  "SecretAccessKey" := PStr "SK1";
                  "SessionToken" := PStr "TOK1";
                  "Expiration" := PInt 1478131200 ]};
       "AssumedRoleUser" :=
         PDict {[ "Arn" := PStr "arn:aws:sts::123456789012:assumed-role/someRole/someRoleSession";
                  "AssumedRoleId" := PStr "AROAEXAMPLE:someRoleSession" ]} ]}.

Definition sample_client : Client :=
  {| assume_role := fun _ => inr sample_response |}.

Definition denying_client : Client :=
  {| assume_role := fun _ => inl (ExClientError {| err_message := "AccessDenied" |}) |}.

Definition sample_ec2_argument_spec : gmap string pyval :=
  {[ "region" := PDict {[ "aliases" := PStr "aws_region" ]};
     "ec2_url" := PDict ∅ ]}.

(** A world with boto3 installed, whose connection info is read from the
    module's [region] and [ec2_url] parameters. *)
Definition sample_world (raw : gmap string pyval) (client : Client) : World :=
  {| HAS_BOTO3 := true;
     ec2_argument_spec := sample_ec2_argument_spec;
     AnsibleModule := reference_AnsibleModule raw;
     get_aws_connection_info := fun module =>
       (dict_get (params module) "region", dict_get (params module) "ec2_url", ∅);
     boto3_conn := fun _ _ _ _ _ _ => inr client |}.

Definition required_only : gmap string pyval :=
  {[ "role_arn" := PStr "arn:aws:iam::123456789012:role/someRole";
     "role_session_name" := PStr "someRoleSession";
     "region" := PStr "eu-west-1" ]}.

Definition long_duration : gmap string pyval :=
  <["duration_seconds" := PInt 7200]> required_only.

Definition serial_without_token : gmap string pyval :=
  <["mfa_serial_number" := PStr "GAHT12345678"]> required_only.

(** The same world on a host where boto3 is not installed. *)
Definition without_boto3 (w : World) : World :=
  {| HAS_BOTO3 := false;
     ec2_argument_spec := ec2_argument_spec w;
     AnsibleModule := AnsibleModule w;
     get_aws_connection_info := get_aws_connection_info w;
     boto3_conn := boto3_conn w |}.

(** The module object the reference runtime builds from [raw]. *)
Definition sample_module (raw : gmap string pyval) : Module :=
  {| params := reference_params raw
                 (dict_update sample_ec2_argument_spec role_argument_spec) |}.

(** A client whose call fails outside the provider, and one whose
    response lacks the expiration of the credentials. *)
Definition invalid_client : Client :=
  {| assume_role := fun _ => inl (ExOther "ParamValidationError") |}.

Definition truncated_response : pyval :=
  PDict
    {[ "Credentials" :=
         PDict {[ "AccessKeyId" := PStr "AK1";
                  "SecretAccessKey" := PStr "SK1";
                  "SessionToken" := PStr "TOK1" ]};
       "AssumedRoleUser" :=
         PDict {[ "Arn" := PStr "arn:aws:sts::123456789012:assumed-role/someRole/someRoleSession";
                  "AssumedRoleId" := PStr "AROAEXAMPLE:someRoleSession" ]} ]}.

Definition truncating_client : Client :=
  {| assume_role := fun _ => inr truncated_response |}.

(** The sample world with a [boto3_conn] that raises [x]. *)
Definition unreachable_world (raw : gmap string pyval) (x : exn) : World :=
  {| HAS_BOTO3 := true;
     ec2_argument_spec := sample_ec2_argument_spec;
     AnsibleModule := reference_AnsibleModule raw;
     get_aws_connection_info := fun module =>
       (dict_get (params module) "region", dict_get (params module) "ec2_url", ∅);
     boto3_conn := fun _ _ _ _ _ _ => inl x |}.

(** The same invocation as [required_only], for another region. *)
Definition other_region : gmap string pyval :=
  <["region" := PStr "us-east-1"]> required_only.

(** The module parameters [assume_role_policy] reads. *)
Definition request_parameters : list string :=
  [ "role_arn"; "role_session_name"; "policy"; "duration_seconds";
    "external_id"; "mfa_serial_number"; "mfa_token" ].

(** The keys [assume_role_policy] reads from the response. *)
Definition response_keys : list string :=
  [ "Credentials"; "AccessKeyId"; "SecretAccessKey"; "SessionToken";
    "Expiration"; "AssumedRoleUser"; "Arn"; "AssumedRoleId" ].

(** ** Notions used to state the properties *)

(** An optional parameter and the key it is sent under: the key holds
    the parameter's value when that is not [None], and is missing from
    the request otherwise. *)
Definition sent_iff_set (module : Module) (param key : string) : Prop :=
  request_args module !! key =
    (if is_not_None (dict_get (params module) param)
     then Some (dict_get (params module) param)
     else None).

(** A silent computation leaves the trace as it found it, and its
    result does not depend on the trace. *)
Definition silent {A} (m : M A) : Prop := ∃ r, ∀ t, m t = (r, t).

(** How the run of [assume_role_policy] ends. *)
Definition policy_result (client : Client) (module : Module) : res unit :=
  (run (assume_role_policy client module)).1.

(** * Properties *)

(** ** Running the model on the documented scenario *)

Example scenario_required_only :
  run (main (sample_world required_only sample_client)) =
    (Exit (ExitJson
       {[ "changed" := PBool true;
          "sts_creds" :=
            PDict {[ "access_key" := PStr "AK1";
                     "secret_key" := PStr "SK1";
                     "session_token" := PStr "TOK1";
                     "expiration" := PInt 1478131200 ]};
          "sts_user" :=
            PDict {[ "arn" := PStr "arn:aws:sts::123456789012:assumed-role/someRole/someRoleSession";
                     "assume_role_id" := PStr "AROAEXAMPLE:someRoleSession" ]} ]}),
     [ EvConnInfo;
       EvBoto3Conn "client" "sts" (PStr "eu-west-1") PNone ∅;
       EvAssumeRole
         {[ "RoleArn" := PStr "arn:aws:iam::123456789012:role/someRole";
            "RoleSessionName" := PStr "someRoleSession" ]} ]).
Proof. vm_compute. reflexivity. Qed.

Example scenario_missing_role_arn :
  run (main (sample_world (delete "role_arn" required_only) sample_client)) =
    (Exit (FailJson {[ "msg" := PStr "invalid module arguments" ]}), []).
Proof. vm_compute. reflexivity. Qed.

Example scenario_access_denied :
  run (main (sample_world required_only denying_client)) =
    (Raise ExTypeError,
     [ EvConnInfo;
       EvBoto3Conn "client" "sts" (PStr "eu-west-1") PNone ∅;
       EvAssumeRole
         {[ "RoleArn" := PStr "arn:aws:iam::123456789012:role/someRole";
            "RoleSessionName" := PStr "someRoleSession" ]} ]).
Proof. vm_compute. reflexivity. Qed.

(** ** The request *)

Lemma is_not_None_true (v : pyval) : is_not_None v = true ↔ v ≠ PNone.
Proof. destruct v; simpl; split; congruence. Qed.

Lemma is_not_None_false (v : pyval) : is_not_None v = false ↔ v = PNone.
Proof. destruct v; simpl; split; congruence. Qed.

Ltac request_cases module :=
  unfold sent_iff_set, request_args;
  destruct (is_not_None (dict_get (params module) "policy"));
  destruct (is_not_None (dict_get (params module) "duration_seconds"));
  destruct (is_not_None (dict_get (params module) "external_id"));
  destruct (is_not_None (dict_get (params module) "mfa_serial_number"));
  destruct (is_not_None (dict_get (params module) "mfa_token"));
  cbv zeta.

Lemma request_policy module : sent_iff_set module "policy" "Policy".
Proof. request_cases module; by simplify_map_eq. Qed.

Lemma request_duration_seconds module :
  sent_iff_set module "duration_seconds" "DurationSeconds".
Proof. request_cases module; by simplify_map_eq. Qed.

Lemma request_external_id module : sent_iff_set module "external_id" "ExternalId".
Proof. request_cases module; by simplify_map_eq. Qed.

Lemma request_mfa_serial_number module :
  sent_iff_set module "mfa_serial_number" "SerialNumber".
Proof. request_cases module; by simplify_map_eq. Qed.

Lemma request_mfa_token module : sent_iff_set module "mfa_token" "TokenCode".
Proof. request_cases module; by simplify_map_eq. Qed.

Lemma request_RoleArn module :
  request_args module !! "RoleArn" = Some (dict_get (params module) "role_arn").
Proof. request_cases module; by simplify_map_eq. Qed.

Lemma request_RoleSessionName module :
  request_args module !! "RoleSessionName" =
    Some (dict_get (params module) "role_session_name").
Proof. request_cases module; by simplify_map_eq. Qed.

(** ** Computations that call no collaborator *)

Lemma silent_mret {A} (a : A) : silent (mret a : M A).
Proof. by exists (Ret a). Qed.

Lemma silent_raise {A} (x : exn) : silent (raise x : M A).
Proof. by exists (Raise x). Qed.

Lemma silent_exit_json {A} module kwargs : silent (exit_json module kwargs : M A).
Proof. by exists (Exit (ExitJson kwargs)). Qed.

Lemma silent_fail_json {A} module kwargs : silent (fail_json module kwargs : M A).
Proof. by exists (fail_json_result kwargs). Qed.

Lemma silent_bind {A B} (m : M A) (k : A → M B) :
  silent m → (∀ a, silent (k a)) → silent (m ≫= k).
Proof.
  intros [r Hm] Hk. destruct r as [a|o|x].
  - destruct (Hk a) as [r' Hr']. exists r'. intros t.
    unfold mbind, M_bind. by rewrite Hm, Hr'.
  - exists (Exit o). intros t. unfold mbind, M_bind. by rewrite Hm.
  - exists (Raise x). intros t. unfold mbind, M_bind. by rewrite Hm.
Qed.

Lemma silent_getitem v k : silent (getitem v k).
Proof.
  unfold getitem. destruct v; try apply silent_raise.
  destruct (d !! k); [apply silent_mret | apply silent_raise].
Qed.

Create HintDb silent.
#[local] Hint Resolve silent_mret silent_raise silent_exit_json silent_fail_json
  silent_getitem : silent.

(** ** What [fail_json] does with its message *)

Lemma fail_json_result_str {A} (s : string) :
  fail_json_result (A := A) {[ "msg" := PStr s ]} = Exit (FailJson {[ "msg" := PStr s ]}).
Proof.
  unfold fail_json_result. simpl. by rewrite map_fold_singleton.
Qed.

Lemma fail_json_result_exc {A} (e : ClientError) :
  fail_json_result (A := A) {[ "msg" := PExc e ]} = Raise ExTypeError.
Proof.
  unfold fail_json_result. simpl. by rewrite map_fold_singleton.
Qed.

(** ** One call per run of [assume_role_policy] *)

(** Whatever the client answers, [assume_role_policy] adds exactly one
    event to the trace: the call, carrying the request. *)
Lemma assume_role_policy_frame client module t :
  assume_role_policy client module t =
    (policy_result client module, t ++ [EvAssumeRole (request_args module)]).
Proof.
  unfold policy_result, run, assume_role_policy.
  set (args := request_args module).
  match goal with
  | |- (_ ≫= ?k) _ = _ =>
      assert (Hrest : ∀ a, silent (k a));
      [ intros [assumed_role changed];
        repeat (apply silent_bind; [| intros ?]); auto with silent
      | revert Hrest; generalize k; intros rest Hrest ]
  end.
  unfold mbind, M_bind, try_except_ClientError, call_assume_role, mret, M_ret, of_sum.
  destruct (assume_role client args) as [[e|k| |name]|assumed_role]; try done.
  destruct (Hrest (assumed_role, true)) as [r Hr]. by rewrite !Hr.
Qed.

Ltac unfold_policy :=
  unfold policy_result, run, assume_role_policy;
  cbv [mbind M_bind mret M_ret try_except_ClientError call_assume_role of_sum
       getitem raise exit_json fail_json fst].

(** One case split on what the response holds, in a hypothesis about
    how the run ends. *)
Ltac policy_step H :=
  match type of H with
  | context [match ?x with _ => _ end] =>
      first
        [ is_var x; destruct x
        | lazymatch x with
          | _ !! _ => destruct x eqn:?
          | assume_role _ _ => destruct x eqn:?
          end ];
      cbv beta iota zeta in H;
      rewrite ?fail_json_result_exc in H;
      try discriminate H
  end.

(** The handler of line 128 hands the exception object to [fail_json]. *)
Lemma policy_result_fault client module e :
  assume_role client (request_args module) = inl (ExClientError e) →
  policy_result client module = Raise ExTypeError.
Proof.
  intros H. unfold_policy. rewrite H. cbv beta iota.
  by rewrite fail_json_result_exc.
Qed.

Lemma policy_result_success client module payload creds user
    access_key secret_key session_token expiration arn assume_role_id :
  assume_role client (request_args module) = inr (PDict payload) →
  payload !! "Credentials" = Some (PDict creds) →
  creds !! "AccessKeyId" = Some access_key →
  creds !! "SecretAccessKey" = Some secret_key →
  creds !! "SessionToken" = Some session_token →
  creds !! "Expiration" = Some expiration →
  payload !! "AssumedRoleUser" = Some (PDict user) →
  user !! "Arn" = Some arn →
  user !! "AssumedRoleId" = Some assume_role_id →
  policy_result client module =
    Exit (ExitJson
      {[ "changed" := PBool true;
         "sts_creds" :=
           PDict {[ "access_key" := access_key;
                    "secret_key" := secret_key;
                    "session_token" := session_token;
                    "expiration" := expiration ]};
         "sts_user" :=
           PDict {[ "arn" := arn; "assume_role_id" := assume_role_id ]} ]}).
Proof.
  intros H Hc H1 H2 H3 H4 Hu H5 H6. unfold_policy.
  by rewrite H, Hc, H1, H2, H3, H4, Hu, H5, H6.
Qed.

(** The only report of success is the one built from six fields of the
    response. *)
Lemma policy_result_exit_json client module kwargs :
  policy_result client module = Exit (ExitJson kwargs) →
  ∃ access_key secret_key session_token expiration arn assume_role_id,
    kwargs =
      {[ "changed" := PBool true;
         "sts_creds" :=
           PDict {[ "access_key" := access_key;
                    "secret_key" := secret_key;
                    "session_token" := session_token;
                    "expiration" := expiration ]};
         "sts_user" :=
           PDict {[ "arn" := arn; "assume_role_id" := assume_role_id ]} ]}.
Proof.
  unfold_policy. intros H. repeat policy_step H.
  all: simplify_eq; eauto 10.
Qed.

(** A report of failure can only be one built from a fault the client
    raised. *)
Lemma policy_result_fail_json client module kwargs :
  policy_result client module = Exit (FailJson kwargs) →
  ∃ e, assume_role client (request_args module) = inl (ExClientError e)
       ∧ kwargs = {[ "msg" := PExc e ]}.
Proof.
  unfold_policy. intros H. repeat policy_step H.
  all: simplify_eq; eauto.
Qed.

(** [assume_role_policy] lets no [ClientError] escape, so the handler
    around its call in [main] never runs. *)
Lemma policy_result_no_ClientError client module e :
  policy_result client module ≠ Raise (ExClientError e).
Proof.
  unfold_policy. intros H. repeat policy_step H.
  all: simplify_eq.
Qed.

(** ** Runs of [main] *)

Ltac unfold_main :=
  unfold run, main;
  cbv [mbind M_bind mret M_ret try_except_ClientError call_AnsibleModule
       call_get_aws_connection_info call_boto3_conn of_sum fail_json negb];
  rewrite ?(fail_json_result_str "boto3 required for this module"),
          ?(fail_json_result_str "region must be specified").

(** Once the module object, the region and the client are there, [main]
    ends the way [assume_role_policy] does, after three calls to its
    collaborators. *)
Lemma main_configured w module region ec2_url aws_connect_kwargs client :
  AnsibleModule w (argument_spec w) = inr module →
  HAS_BOTO3 w = true →
  get_aws_connection_info w module = (region, ec2_url, aws_connect_kwargs) →
  truthy region = true →
  boto3_conn w module "client" "sts" region ec2_url aws_connect_kwargs = inr client →
  run (main w) =
    (policy_result client module,
     [ EvConnInfo;
       EvBoto3Conn "client" "sts" region ec2_url aws_connect_kwargs;
       EvAssumeRole (request_args module) ]).
Proof.
  intros Hmod Hboto Hconn Hregion Hclient. unfold_main.
  rewrite Hmod, Hboto, Hconn, Hregion, Hclient, assume_role_policy_frame.
  pose proof (policy_result_no_ClientError client module) as Hno.
  destruct (policy_result client module) as [a|o|[e| | |]];
    rewrite ?fail_json_result_exc; try done.
  by destruct (Hno e).
Qed.

(** The traces [main] can leave: the three collaborators are called in
    order, each at most once. *)
Lemma main_trace w :
  ∃ t, (run (main w)).2 = t ∧
    (t = []
     ∨ t = [EvConnInfo]
     ∨ (∃ region ec2_url kwargs,
          t = [EvConnInfo; EvBoto3Conn "client" "sts" region ec2_url kwargs])
     ∨ (∃ region ec2_url kwargs args,
          t = [EvConnInfo; EvBoto3Conn "client" "sts" region ec2_url kwargs;
               EvAssumeRole args])).
Proof.
  eexists; split; [reflexivity|]. unfold_main.
  destruct (AnsibleModule w (argument_spec w)) as [kw|module]; [by left|].
  destruct (HAS_BOTO3 w); [|by left].
  destruct (get_aws_connection_info w module) as [[region ec2_url] kwargs].
  destruct (truthy region); [|by right; left].
  destruct (boto3_conn w module "client" "sts" region ec2_url kwargs)
    as [[e|k| |name]|client]; rewrite ?fail_json_result_str; simpl;
    try (right; right; left; eauto; fail).
  rewrite assume_role_policy_frame.
  right; right; right. exists region, ec2_url, kwargs, (request_args module).
  by destruct (policy_result client module) as [a|o|[e| | |]];
    rewrite ?fail_json_result_exc.
Qed.

(** A report of success from [main] is the one [assume_role_policy]
    made. *)
Lemma main_exit_json w kwargs :
  (run (main w)).1 = Exit (ExitJson kwargs) →
  ∃ client module,
    AnsibleModule w (argument_spec w) = inr module
    ∧ policy_result client module = Exit (ExitJson kwargs).
Proof.
  unfold_main.
  destruct (AnsibleModule w (argument_spec w)) as [kw|module]; [done|].
  destruct (HAS_BOTO3 w); [|done].
  destruct (get_aws_connection_info w module) as [[region ec2_url] aws_connect_kwargs].
  destruct (truthy region); [|done].
  destruct (boto3_conn w module "client" "sts" region ec2_url aws_connect_kwargs)
    as [[e|k| |name]|client]; rewrite ?fail_json_result_str; try done.
  rewrite assume_role_policy_frame.
  destruct (policy_result client module) as [a|o|[e| | |]] eqn:Hresult;
    rewrite ?fail_json_result_exc; try done.
  simpl. intros [= ->]. eauto.
Qed.

(** * The claims *)

(** ** C2: the request of a required-only invocation *)

(** C2.  When [role_arn] and [role_session_name] are set and the five
    optional parameters are [None], the request [assume_role_policy]
    builds and hands to the client holds the two keys [RoleArn] and
    [RoleSessionName], with the given values, and no other key. *)
Theorem required_only_request client module role_arn role_session_name :
  params module !! "role_arn" = Some role_arn →
  params module !! "role_session_name" = Some role_session_name →
  dict_get (params module) "policy" = PNone →
  dict_get (params module) "duration_seconds" = PNone →
  dict_get (params module) "external_id" = PNone →
  dict_get (params module) "mfa_serial_number" = PNone →
  dict_get (params module) "mfa_token" = PNone →
  request_args module =
    {[ "RoleArn" := role_arn; "RoleSessionName" := role_session_name ]}
  ∧ dom (request_args module) = {[ "RoleArn"; "RoleSessionName" ]}
  ∧ (run (assume_role_policy client module)).2 = [EvAssumeRole (request_args module)].
Proof.
  intros Harn Hname Hpolicy Hduration Hext Hserial Htoken.
  assert (Hargs : request_args module =
            {[ "RoleArn" := role_arn; "RoleSessionName" := role_session_name ]}).
  { unfold request_args.
    rewrite Hpolicy, Hduration, Hext, Hserial, Htoken. cbv beta iota zeta.
    unfold dict_get. rewrite Harn, Hname. simpl.
    apply map_eq. intros k.
    destruct (decide (k = "RoleArn")) as [->|?];
      [| destruct (decide (k = "RoleSessionName")) as [->|?]];
      by simplify_map_eq. }
  split; [done|]. split.
  - rewrite Hargs, dom_insert_L, dom_singleton_L. set_solver.
  - unfold run. by rewrite assume_role_policy_frame.
Qed.

Lemma required_only_request_witness :
  request_args (sample_module required_only) =
    {[ "RoleArn" := PStr "arn:aws:iam::123456789012:role/someRole";
       "RoleSessionName" := PStr "someRoleSession" ]}
  ∧ dom (request_args (sample_module required_only)) = {[ "RoleArn"; "RoleSessionName" ]}
  ∧ (run (assume_role_policy sample_client (sample_module required_only))).2 =
      [EvAssumeRole (request_args (sample_module required_only))].
Proof.
  apply (required_only_request sample_client (sample_module required_only));
    vm_compute; reflexivity.
Defined.

(** ** C3: optional parameters are sent exactly when they are set *)

(** C3.  For each of the five optional parameters, the request holds the
    parameter's value, unchanged, under its key ([policy] under [Policy],
    [duration_seconds] under [DurationSeconds], [external_id] under
    [ExternalId], [mfa_serial_number] under [SerialNumber], [mfa_token]
    under [TokenCode]) when the parameter is not [None]; when it is
    [None] the lookup of the key finds nothing: the key is not in the
    request, rather than in it with the value [None].  The request built
    this way is the one the client receives. *)
Theorem optional_parameters_sent_iff_set client module :
  sent_iff_set module "policy" "Policy"
  ∧ sent_iff_set module "duration_seconds" "DurationSeconds"
  ∧ sent_iff_set module "external_id" "ExternalId"
  ∧ sent_iff_set module "mfa_serial_number" "SerialNumber"
  ∧ sent_iff_set module "mfa_token" "TokenCode"
  ∧ (run (assume_role_policy client module)).2 = [EvAssumeRole (request_args module)].
Proof.
  repeat split.
  - apply request_policy.
  - apply request_duration_seconds.
  - apply request_external_id.
  - apply request_mfa_serial_number.
  - apply request_mfa_token.
  - unfold run. by rewrite assume_role_policy_frame.
Qed.

(** ** C4: the report of success *)

(** C4.  When the client answers the call with a response that holds
    [Credentials] (with [AccessKeyId], [SecretAccessKey], [SessionToken]
    and [Expiration]) and [AssumedRoleUser] (with [Arn] and
    [AssumedRoleId]), the run ends in [exit_json] with [changed] true,
    [sts_creds] holding the four credential values and [sts_user] the
    two identity values, each value as it was in the response. *)
Theorem success_is_a_field_mapping client module payload creds user
    access_key secret_key session_token expiration arn assume_role_id :
  assume_role client (request_args module) = inr (PDict payload) →
  payload !! "Credentials" = Some (PDict creds) →
  creds !! "AccessKeyId" = Some access_key →
  creds !! "SecretAccessKey" = Some secret_key →
  creds !! "SessionToken" = Some session_token →
  creds !! "Expiration" = Some expiration →
  payload !! "AssumedRoleUser" = Some (PDict user) →
  user !! "Arn" = Some arn →
  user !! "AssumedRoleId" = Some assume_role_id →
  run (assume_role_policy client module) =
    (Exit (ExitJson
       {[ "changed" := PBool true;
          "sts_creds" :=
            PDict {[ "access_key" := access_key;
                     "secret_key" := secret_key;
                     "session_token" := session_token;
                     "expiration" := expiration ]};
          "sts_user" :=
            PDict {[ "arn" := arn; "assume_role_id" := assume_role_id ]} ]}),
     [EvAssumeRole (request_args module)]).
Proof.
  intros. unfold run. rewrite assume_role_policy_frame.
  by erewrite policy_result_success.
Qed.

Lemma success_is_a_field_mapping_witness :
  run (assume_role_policy sample_client (sample_module required_only)) =
    (Exit (ExitJson
       {[ "changed" := PBool true;
          "sts_creds" :=
            PDict {[ "access_key" := PStr "AK1";
                     "secret_key" := PStr "SK1";
                     "session_token" := PStr "TOK1";
                     "expiration" := PInt 1478131200 ]};
          "sts_user" :=
            PDict {[ "arn" := PStr "arn:aws:sts::123456789012:assumed-role/someRole/someRoleSession";
                     "assume_role_id" := PStr "AROAEXAMPLE:someRoleSession" ]} ]}),
     [EvAssumeRole (request_args (sample_module required_only))]).
Proof.
  eapply (success_is_a_field_mapping sample_client (sample_module required_only));
    vm_compute; reflexivity.
Defined.

(** ** C5: a provider fault *)

(** C5 does not hold of the code.  When the client raises a
    [ClientError], the handler of line 128 hands [fail_json] the
    exception object itself as [msg], where the handler of line 168
    hands it [str(e)].  [fail_json] cannot report an exception object
    and raises [TypeError]: the run ends in that exception after the one
    call, and makes no report at all, neither of failure with the
    message of the fault nor of success with credentials. *)
Theorem provider_fault_is_not_reported client module e :
  assume_role client (request_args module) = inl (ExClientError e) →
  run (assume_role_policy client module) =
    (Raise ExTypeError, [EvAssumeRole (request_args module)])
  ∧ (∀ o, policy_result client module ≠ Exit o).
Proof.
  intros Hfault. unfold run.
  rewrite assume_role_policy_frame, (policy_result_fault client module e Hfault).
  done.
Qed.

Lemma provider_fault_is_not_reported_witness :
  run (assume_role_policy denying_client (sample_module required_only)) =
    (Raise ExTypeError, [EvAssumeRole (request_args (sample_module required_only))])
  ∧ (∀ o, policy_result denying_client (sample_module required_only) ≠ Exit o).
Proof.
  apply (provider_fault_is_not_reported denying_client (sample_module required_only)
           {| err_message := "AccessDenied" |}).
  reflexivity.
Defined.

(** ** C6: an MFA serial number without a token *)

(** C6.  When [mfa_serial_number] is set and [mfa_token] is [None], the
    client is still called, with a request that holds the serial number
    under [SerialNumber] and has no [TokenCode] key.  Nothing is checked
    locally: a report of failure can only come from a fault the client
    raised in answer to that call. *)
Theorem unpaired_mfa_serial_is_sent client module :
  dict_get (params module) "mfa_serial_number" ≠ PNone →
  dict_get (params module) "mfa_token" = PNone →
  (run (assume_role_policy client module)).2 = [EvAssumeRole (request_args module)]
  ∧ request_args module !! "SerialNumber" =
      Some (dict_get (params module) "mfa_serial_number")
  ∧ ("TokenCode" ∉ dom (request_args module))
  ∧ (∀ kwargs,
       policy_result client module = Exit (FailJson kwargs) →
       ∃ e, assume_role client (request_args module) = inl (ExClientError e)
            ∧ kwargs = {[ "msg" := PExc e ]}).
Proof.
  intros Hserial%is_not_None_true Htoken.
  pose proof (request_mfa_serial_number module) as Hs.
  pose proof (request_mfa_token module) as Ht.
  unfold sent_iff_set in Hs, Ht. rewrite Hserial in Hs. rewrite Htoken in Ht.
  repeat split.
  - unfold run. by rewrite assume_role_policy_frame.
  - done.
  - by apply not_elem_of_dom.
  - intros kwargs. apply policy_result_fail_json.
Qed.

Lemma unpaired_mfa_serial_is_sent_witness :
  (run (assume_role_policy sample_client (sample_module serial_without_token))).2 =
    [EvAssumeRole (request_args (sample_module serial_without_token))]
  ∧ request_args (sample_module serial_without_token) !! "SerialNumber" =
      Some (dict_get (params (sample_module serial_without_token)) "mfa_serial_number")
  ∧ ("TokenCode" ∉ dom (request_args (sample_module serial_without_token)))
  ∧ (∀ kwargs,
       policy_result sample_client (sample_module serial_without_token) =
         Exit (FailJson kwargs) →
       ∃ e, assume_role sample_client (request_args (sample_module serial_without_token)) =
              inl (ExClientError e)
            ∧ kwargs = {[ "msg" := PExc e ]}).
Proof.
  apply (unpaired_mfa_serial_is_sent sample_client (sample_module serial_without_token)).
  - vm_compute. discriminate.
  - vm_compute. reflexivity.
Defined.

(** The same invocation through [main], under the reference runtime. *)
Example scenario_serial_without_token :
  (run (main (sample_world serial_without_token sample_client))).2 =
    [ EvConnInfo;
      EvBoto3Conn "client" "sts" (PStr "eu-west-1") PNone ∅;
      EvAssumeRole
        {[ "RoleArn" := PStr "arn:aws:iam::123456789012:role/someRole";
           "RoleSessionName" := PStr "someRoleSession";
           "SerialNumber" := PStr "GAHT12345678" ]} ].
Proof. vm_compute. reflexivity. Qed.

(** ** C10: the shape of the report of success *)

(** C10.  A report of success has exactly the fields [changed],
    [sts_creds] and [sts_user]; [sts_creds] is a dictionary with exactly
    the keys [access_key], [secret_key], [session_token] and
    [expiration]; [sts_user] is a dictionary with exactly the keys [arn]
    and [assume_role_id], so there is no key [assumed_role_id]. *)
Theorem success_report_shape client module kwargs :
  policy_result client module = Exit (ExitJson kwargs) →
  dom kwargs = {[ "changed"; "sts_creds"; "sts_user" ]}
  ∧ ∃ sts_creds sts_user,
      kwargs !! "sts_creds" = Some (PDict sts_creds)
      ∧ dom sts_creds = {[ "access_key"; "secret_key"; "session_token"; "expiration" ]}
      ∧ kwargs !! "sts_user" = Some (PDict sts_user)
      ∧ dom sts_user = {[ "arn"; "assume_role_id" ]}
      ∧ "assumed_role_id" ∉ dom sts_user.
Proof.
  intros H.
  destruct (policy_result_exit_json client module kwargs H)
    as (access_key & secret_key & session_token & expiration & arn & assume_role_id & ->).
  split.
  - rewrite !dom_insert_L, dom_singleton_L. set_solver.
  - eexists _, _. split; [by simplify_map_eq|]. split.
    { rewrite !dom_insert_L, dom_singleton_L. set_solver. }
    split; [by simplify_map_eq|].
    rewrite !dom_insert_L, dom_singleton_L. split; [set_solver|].
    rewrite !elem_of_union, !elem_of_singleton. by intros [|].
Qed.

Lemma success_report_shape_witness :
  ∃ kwargs,
    policy_result sample_client (sample_module required_only) = Exit (ExitJson kwargs)
    ∧ dom kwargs = {[ "changed"; "sts_creds"; "sts_user" ]}
    ∧ ∃ sts_creds sts_user,
        kwargs !! "sts_creds" = Some (PDict sts_creds)
        ∧ dom sts_creds = {[ "access_key"; "secret_key"; "session_token"; "expiration" ]}
        ∧ kwargs !! "sts_user" = Some (PDict sts_user)
        ∧ dom sts_user = {[ "arn"; "assume_role_id" ]}
        ∧ "assumed_role_id" ∉ dom sts_user.
Proof.
  eexists. split; [vm_compute; reflexivity|].
  apply (success_report_shape sample_client (sample_module required_only)).
  vm_compute. reflexivity.
Defined.

(** ** C7: one call, no retry *)

Lemma assume_role_calls_policy client module :
  assume_role_calls (run (assume_role_policy client module)).2 = 1.
Proof. unfold run. by rewrite assume_role_policy_frame. Qed.

(** C7.  No run of [main] calls the client's [assume_role] more than
    once.  When the module object, the region and the client are
    established and boto3 is there, the call is made exactly once,
    whatever the client answers: a response, a fault or any other
    exception. *)
Theorem assume_role_called_once w :
  (assume_role_calls (run (main w)).2 ≤ 1)%nat
  ∧ (∀ module region ec2_url aws_connect_kwargs client,
       AnsibleModule w (argument_spec w) = inr module →
       HAS_BOTO3 w = true →
       get_aws_connection_info w module = (region, ec2_url, aws_connect_kwargs) →
       truthy region = true →
       boto3_conn w module "client" "sts" region ec2_url aws_connect_kwargs = inr client →
       assume_role_calls (run (main w)).2 = 1).
Proof.
  split.
  - destruct (main_trace w) as (t & -> & [->|[->|[(?&?&?&->)|(?&?&?&?&->)]]]);
      cbn; lia.
  - intros module region ec2_url kwargs client Hmod Hboto Hconn Hregion Hclient.
    by rewrite (main_configured w module region ec2_url kwargs client).
Qed.

Lemma assume_role_called_once_witness :
  assume_role_calls (run (main (sample_world required_only denying_client))).2 = 1.
Proof.
  apply (proj2 (assume_role_called_once (sample_world required_only denying_client))
           (sample_module required_only) (PStr "eu-west-1") PNone ∅ denying_client);
    vm_compute; reflexivity.
Defined.

(** ** C8: no region *)

(** C8.  When the module object is there and the connection
    information has no region ([None], or an empty string), no run of
    [main] reaches the client's [assume_role]; with boto3 available the
    run ends in [fail_json] with the message [region must be specified],
    right after the connection information was resolved and before any
    client is built. *)
Theorem no_region_fails_before_the_call w module region ec2_url aws_connect_kwargs :
  AnsibleModule w (argument_spec w) = inr module →
  get_aws_connection_info w module = (region, ec2_url, aws_connect_kwargs) →
  truthy region = false →
  assume_role_calls (run (main w)).2 = 0
  ∧ (HAS_BOTO3 w = true →
     run (main w) =
       (Exit (FailJson {[ "msg" := PStr "region must be specified" ]}), [EvConnInfo])).
Proof.
  intros Hmod Hconn Hregion. unfold_main. rewrite Hmod.
  destruct (HAS_BOTO3 w); [|done].
  by rewrite Hconn, Hregion.
Qed.

Lemma no_region_fails_before_the_call_witness :
  assume_role_calls
    (run (main (sample_world (delete "region" required_only) sample_client))).2 = 0
  ∧ (HAS_BOTO3 (sample_world (delete "region" required_only) sample_client) = true →
     run (main (sample_world (delete "region" required_only) sample_client)) =
       (Exit (FailJson {[ "msg" := PStr "region must be specified" ]}), [EvConnInfo])).
Proof.
  apply (no_region_fails_before_the_call
           (sample_world (delete "region" required_only) sample_client)
           (sample_module (delete "region" required_only)) PNone PNone ∅);
    vm_compute; reflexivity.
Defined.

Example scenario_no_region :
  run (main (sample_world (delete "region" required_only) sample_client)) =
    (Exit (FailJson {[ "msg" := PStr "region must be specified" ]}), [EvConnInfo]).
Proof. vm_compute. reflexivity. Qed.

(** ** C9: boto3 missing *)

(** C9.  When boto3 could not be imported, every run of [main] ends in
    [fail_json] with an empty trace: no connection information was
    resolved, no client built and no [assume_role] call made.  Once the
    module object is there, the message is
    [boto3 required for this module]. *)
Theorem boto3_missing_fails_first w :
  HAS_BOTO3 w = false →
  (∃ kwargs, run (main w) = (Exit (FailJson kwargs), []))
  ∧ (∀ module,
       AnsibleModule w (argument_spec w) = inr module →
       run (main w) =
         (Exit (FailJson {[ "msg" := PStr "boto3 required for this module" ]}), [])).
Proof.
  intros Hboto. unfold_main. rewrite Hboto.
  destruct (AnsibleModule w (argument_spec w)) as [kwargs|module]; split; eauto; done.
Qed.

Lemma boto3_missing_fails_first_witness :
  run (main (without_boto3 (sample_world required_only sample_client))) =
    (Exit (FailJson {[ "msg" := PStr "boto3 required for this module" ]}), []).
Proof.
  apply (proj2 (boto3_missing_fails_first
                  (without_boto3 (sample_world required_only sample_client))
                  eq_refl)
           (sample_module required_only)).
  vm_compute. reflexivity.
Defined.

(** ** C1: a duration outside 900-3600 *)

(** The argument spec declares [duration_seconds] as an optional
    integer and says nothing of a range. *)
Example duration_seconds_option w :
  argument_spec w !! "duration_seconds" =
    Some (PDict {[ "required" := PBool false; "default" := PNone; "type" := PStr "int" ]}).
Proof.
  unfold argument_spec, dict_update. apply lookup_union_Some_l.
  vm_compute. reflexivity.
Qed.

(** C1, as stated, fails.  An invocation with [duration_seconds = 7200],
    outside 900-3600, passes the argument spec and reaches the client:
    [assume_role] is called, with [DurationSeconds] set to 7200. *)
Lemma duration_7200_reaches_the_client :
  AnsibleModule (sample_world long_duration sample_client)
      (argument_spec (sample_world long_duration sample_client)) =
    inr (sample_module long_duration)
  ∧ params (sample_module long_duration) !! "duration_seconds" = Some (PInt 7200)
  ∧ ¬ (900 ≤ 7200 ≤ 3600)%Z
  ∧ (run (main (sample_world long_duration sample_client))).2 =
      [ EvConnInfo;
        EvBoto3Conn "client" "sts" (PStr "eu-west-1") PNone ∅;
        EvAssumeRole
          {[ "RoleArn" := PStr "arn:aws:iam::123456789012:role/someRole";
             "RoleSessionName" := PStr "someRoleSession";
             "DurationSeconds" := PInt 7200 ]} ]
  ∧ assume_role_calls (run (main (sample_world long_duration sample_client))).2 ≠ 0.
Proof.
  split; [vm_compute; reflexivity|].
  split; [vm_compute; reflexivity|].
  split; [lia|].
  split; [vm_compute; reflexivity|].
  vm_compute. discriminate.
Qed.

(** C1, amended.  The module does not check [duration_seconds] against a
    range.  Whatever integer it holds, inside 900-3600 or not, once the
    module object, the region and the client are established and boto3
    is there, the value is sent unchanged under [DurationSeconds] and
    the client's [assume_role] is called with it, once. *)
Theorem duration_seconds_is_forwarded
    w module region ec2_url aws_connect_kwargs client (d : Z) :
  AnsibleModule w (argument_spec w) = inr module →
  HAS_BOTO3 w = true →
  get_aws_connection_info w module = (region, ec2_url, aws_connect_kwargs) →
  truthy region = true →
  boto3_conn w module "client" "sts" region ec2_url aws_connect_kwargs = inr client →
  dict_get (params module) "duration_seconds" = PInt d →
  request_args module !! "DurationSeconds" = Some (PInt d)
  ∧ (run (main w)).2 =
      [ EvConnInfo;
        EvBoto3Conn "client" "sts" region ec2_url aws_connect_kwargs;
        EvAssumeRole (request_args module) ]
  ∧ assume_role_calls (run (main w)).2 = 1.
Proof.
  intros Hmod Hboto Hconn Hregion Hclient Hduration.
  rewrite (main_configured w module region ec2_url aws_connect_kwargs client)
    by done.
  repeat split.
  pose proof (request_duration_seconds module) as Hsent.
  unfold sent_iff_set in Hsent. by rewrite Hduration in Hsent.
Qed.

Lemma duration_seconds_is_forwarded_witness :
  request_args (sample_module long_duration) !! "DurationSeconds" = Some (PInt 7200)
  ∧ (run (main (sample_world long_duration sample_client))).2 =
      [ EvConnInfo;
        EvBoto3Conn "client" "sts" (PStr "eu-west-1") PNone ∅;
        EvAssumeRole (request_args (sample_module long_duration)) ]
  ∧ assume_role_calls (run (main (sample_world long_duration sample_client))).2 = 1.
Proof.
  apply (duration_seconds_is_forwarded
           (sample_world long_duration sample_client)
           (sample_module long_duration) (PStr "eu-west-1") PNone ∅ sample_client 7200);
    vm_compute; reflexivity.
Defined.

(** * Further properties of the module *)

(** ** How a run of [assume_role_policy] can end *)

Lemma policy_result_no_Ret client module a :
  policy_result client module ≠ Ret a.
Proof.
  unfold_policy. intros H. repeat policy_step H.
Qed.

Lemma policy_result_exception client module x :
  assume_role client (request_args module) = inl x →
  (∀ e, x ≠ ExClientError e) →
  policy_result client module = Raise x.
Proof.
  intros H Hx. unfold_policy. rewrite H.
  destruct x as [e| | |]; [by destruct (Hx e)|done..].
Qed.

(** X1.  An exception of the client that is not a [ClientError] is not
    reported through [fail_json]: it leaves [assume_role_policy], and
    [main] around it, as it was raised, after the one call. *)
Theorem other_exception_propagates
    w module region ec2_url aws_connect_kwargs client x :
  AnsibleModule w (argument_spec w) = inr module →
  HAS_BOTO3 w = true →
  get_aws_connection_info w module = (region, ec2_url, aws_connect_kwargs) →
  truthy region = true →
  boto3_conn w module "client" "sts" region ec2_url aws_connect_kwargs = inr client →
  assume_role client (request_args module) = inl x →
  (∀ e, x ≠ ExClientError e) →
  run (assume_role_policy client module) =
    (Raise x, [EvAssumeRole (request_args module)])
  ∧ run (main w) =
      (Raise x,
       [ EvConnInfo;
         EvBoto3Conn "client" "sts" region ec2_url aws_connect_kwargs;
         EvAssumeRole (request_args module) ]).
Proof.
  intros Hmod Hboto Hconn Hregion Hclient Hx Hne.
  rewrite (main_configured w module region ec2_url aws_connect_kwargs client) by done.
  unfold run at 1. rewrite assume_role_policy_frame.
  by rewrite (policy_result_exception client module x).
Qed.

Lemma other_exception_propagates_witness :
  run (assume_role_policy invalid_client (sample_module required_only)) =
    (Raise (ExOther "ParamValidationError"),
     [EvAssumeRole (request_args (sample_module required_only))])
  ∧ run (main (sample_world required_only invalid_client)) =
      (Raise (ExOther "ParamValidationError"),
       [ EvConnInfo;
         EvBoto3Conn "client" "sts" (PStr "eu-west-1") PNone ∅;
         EvAssumeRole (request_args (sample_module required_only)) ]).
Proof.
  apply (other_exception_propagates
           (sample_world required_only invalid_client)
           (sample_module required_only) (PStr "eu-west-1") PNone ∅ invalid_client
           (ExOther "ParamValidationError"));
    try (vm_compute; reflexivity).
  intros e. discriminate.
Defined.

(** ** When the client cannot be built *)

(** X2.  When [boto3_conn] raises, [assume_role] is never called.  A
    [ClientError] is reported through [fail_json] with its text, as a
    string, for message; any other exception leaves [main] as raised. *)
Theorem client_construction_failure
    w module region ec2_url aws_connect_kwargs x :
  AnsibleModule w (argument_spec w) = inr module →
  HAS_BOTO3 w = true →
  get_aws_connection_info w module = (region, ec2_url, aws_connect_kwargs) →
  truthy region = true →
  boto3_conn w module "client" "sts" region ec2_url aws_connect_kwargs = inl x →
  run (main w) =
    (match x with
     | ExClientError e => Exit (FailJson {[ "msg" := PStr (str_ClientError e) ]})
     | _ => Raise x
     end,
     [ EvConnInfo; EvBoto3Conn "client" "sts" region ec2_url aws_connect_kwargs ])
  ∧ assume_role_calls (run (main w)).2 = 0.
Proof.
  intros Hmod Hboto Hconn Hregion Hclient. unfold_main.
  rewrite Hmod, Hboto, Hconn, Hregion, Hclient.
  by destruct x; rewrite ?fail_json_result_str.
Qed.

Lemma client_construction_failure_witness :
  run (main (unreachable_world required_only
               (ExClientError {| err_message := "InvalidClientTokenId" |}))) =
    (Exit (FailJson {[ "msg" := PStr "InvalidClientTokenId" ]}),
     [ EvConnInfo; EvBoto3Conn "client" "sts" (PStr "eu-west-1") PNone ∅ ])
  ∧ assume_role_calls
      (run (main (unreachable_world required_only
                    (ExClientError {| err_message := "InvalidClientTokenId" |})))).2 = 0.
Proof.
  apply (client_construction_failure
           (unreachable_world required_only
              (ExClientError {| err_message := "InvalidClientTokenId" |}))
           (sample_module required_only) (PStr "eu-west-1") PNone ∅
           (ExClientError {| err_message := "InvalidClientTokenId" |}));
    vm_compute; reflexivity.
Defined.

(** ** No silent end *)

(** X3.  No run of [main] returns to its caller, and none lets a
    [ClientError] escape: a run ends in a report ([exit_json] or
    [fail_json]) or in an exception that is not a [ClientError]. *)
Theorem main_reports_or_raises w :
  (∀ a, (run (main w)).1 ≠ Ret a)
  ∧ (∀ e, (run (main w)).1 ≠ Raise (ExClientError e)).
Proof.
  unfold_main.
  destruct (AnsibleModule w (argument_spec w)) as [kw|module]; [done|].
  destruct (HAS_BOTO3 w); [|done].
  destruct (get_aws_connection_info w module) as [[region ec2_url] aws_connect_kwargs].
  destruct (truthy region); [|done].
  destruct (boto3_conn w module "client" "sts" region ec2_url aws_connect_kwargs)
    as [[e|k| |name]|client]; rewrite ?fail_json_result_str; try done.
  rewrite assume_role_policy_frame.
  pose proof (policy_result_no_Ret client module) as HnoRet.
  by destruct (policy_result client module) as [a|o|[e| | |]];
    rewrite ?fail_json_result_exc.
Qed.

(** ** Reports and responses *)

(** X4.  A report of success is only ever made from a response that is a
    dictionary holding all six fields, and it says [changed] is true: the
    initial [changed = False] is never reported. *)
Theorem success_needs_a_complete_response client module kwargs :
  policy_result client module = Exit (ExitJson kwargs) →
  kwargs !! "changed" = Some (PBool true)
  ∧ ∃ payload creds user access_key secret_key session_token expiration arn assume_role_id,
      assume_role client (request_args module) = inr (PDict payload)
      ∧ payload !! "Credentials" = Some (PDict creds)
      ∧ creds !! "AccessKeyId" = Some access_key
      ∧ creds !! "SecretAccessKey" = Some secret_key
      ∧ creds !! "SessionToken" = Some session_token
      ∧ creds !! "Expiration" = Some expiration
      ∧ payload !! "AssumedRoleUser" = Some (PDict user)
      ∧ user !! "Arn" = Some arn
      ∧ user !! "AssumedRoleId" = Some assume_role_id
      ∧ kwargs !! "sts_creds" =
          Some (PDict {[ "access_key" := access_key;
                         "secret_key" := secret_key;
                         "session_token" := session_token;
                         "expiration" := expiration ]})
      ∧ kwargs !! "sts_user" =
          Some (PDict {[ "arn" := arn; "assume_role_id" := assume_role_id ]}).
Proof.
  unfold_policy. intros H. repeat policy_step H.
  all: simplify_eq.
  split; [by simplify_map_eq|].
  do 9 eexists. repeat (split; [eassumption || reflexivity|]).
  split; by simplify_map_eq.
Qed.

Lemma success_needs_a_complete_response_witness :
  ∃ kwargs,
    policy_result sample_client (sample_module required_only) = Exit (ExitJson kwargs)
    ∧ kwargs !! "changed" = Some (PBool true).
Proof.
  eexists. split; [vm_compute; reflexivity|].
  apply (success_needs_a_complete_response sample_client (sample_module required_only)).
  vm_compute. reflexivity.
Defined.

(** X5.  When the client returns, whatever it returns, the run never ends
    in [fail_json]: it ends in the report of success, or in an uncaught
    [KeyError] naming one of the keys read from the response, or in a
    [TypeError].  No report is made from part of the fields. *)
Theorem returned_response_is_never_a_failure_report client module response :
  assume_role client (request_args module) = inr response →
  (∃ kwargs, policy_result client module = Exit (ExitJson kwargs))
  ∨ (∃ k, k ∈ response_keys ∧ policy_result client module = Raise (ExKeyError k))
  ∨ policy_result client module = Raise ExTypeError.
Proof.
  intros Hresponse.
  destruct (policy_result client module) as [a|[kwargs|kwargs]|x] eqn:H.
  - by destruct (policy_result_no_Ret client module a).
  - eauto.
  - destruct (policy_result_fail_json client module kwargs H) as (e & He & _).
    congruence.
  - right. revert H. unfold_policy. rewrite Hresponse. intros H.
    repeat policy_step H.
    all: simplify_eq; try (by right).
    all: left; eexists; split; [|reflexivity];
      apply list_elem_of_In; simpl; tauto.
Qed.

Lemma returned_response_is_never_a_failure_report_witness :
  (∃ kwargs, policy_result truncating_client (sample_module required_only) =
               Exit (ExitJson kwargs))
  ∨ (∃ k, k ∈ response_keys
          ∧ policy_result truncating_client (sample_module required_only) =
              Raise (ExKeyError k))
  ∨ policy_result truncating_client (sample_module required_only) = Raise ExTypeError.
Proof.
  apply (returned_response_is_never_a_failure_report
           truncating_client (sample_module required_only) truncated_response).
  reflexivity.
Defined.

(** With the expiration missing, the three credentials that are there are
    not reported. *)
Example scenario_truncated_response :
  run (main (sample_world required_only truncating_client)) =
    (Raise (ExKeyError "Expiration"),
     [ EvConnInfo;
       EvBoto3Conn "client" "sts" (PStr "eu-west-1") PNone ∅;
       EvAssumeRole
         {[ "RoleArn" := PStr "arn:aws:iam::123456789012:role/someRole";
            "RoleSessionName" := PStr "someRoleSession" ]} ]).
Proof. vm_compute. reflexivity. Qed.

(** ** The keys of the request *)

(** X6.  Whatever the parameters hold, the request has the keys
    [RoleArn] and [RoleSessionName], bound to [None] when the parameter
    is missing, and has no key besides these two and the five optional
    ones. *)
Theorem request_keys_bounds module :
  request_args module !! "RoleArn" = Some (dict_get (params module) "role_arn")
  ∧ request_args module !! "RoleSessionName" =
      Some (dict_get (params module) "role_session_name")
  ∧ dom (request_args module) ⊆
      {[ "RoleArn"; "RoleSessionName"; "Policy"; "DurationSeconds";
         "ExternalId"; "SerialNumber"; "TokenCode" ]}.
Proof.
  split; [apply request_RoleArn|]. split; [apply request_RoleSessionName|].
  request_cases module;
    rewrite ?dom_insert_L, dom_singleton_L;
    apply elem_of_subseteq; intros k;
    rewrite !elem_of_union, !elem_of_singleton; tauto.
Qed.

(** X7.  The request is a function of the seven parameters
    [assume_role_policy] reads: two module objects that agree on them,
    whatever else they hold (region, endpoint, base credentials), send
    the same request. *)
Theorem request_reads_seven_parameters module1 module2 :
  Forall (fun p => dict_get (params module1) p = dict_get (params module2) p)
         request_parameters →
  request_args module1 = request_args module2.
Proof.
  unfold request_parameters.
  intros H. repeat (apply Forall_cons in H as [? H]).
  unfold request_args.
  repeat match goal with
         | Heq : dict_get (params module1) _ = _ |- _ => rewrite Heq; clear Heq
         end.
  reflexivity.
Qed.

Lemma request_reads_seven_parameters_witness :
  request_args (sample_module required_only) = request_args (sample_module other_region).
Proof.
  apply (request_reads_seven_parameters
           (sample_module required_only) (sample_module other_region)).
  unfold request_parameters.
  repeat (apply List.Forall_cons; [vm_compute; reflexivity|]).
  apply List.Forall_nil.
Defined.

Example other_region_differs :
  dict_get (params (sample_module required_only)) "region" ≠
  dict_get (params (sample_module other_region)) "region".
Proof. vm_compute. discriminate. Qed.

(** ** [main] around [assume_role_policy] *)

(** X9.  Once the module object, the region and the client are there,
    a run of [main] is the resolution of the connection information,
    the construction of the client and the run of
    [assume_role_policy], which ends both: the handler [main] puts
    around the call never replaces its result. *)
Theorem main_ends_as_assume_role_policy
    w module region ec2_url aws_connect_kwargs client :
  AnsibleModule w (argument_spec w) = inr module →
  HAS_BOTO3 w = true →
  get_aws_connection_info w module = (region, ec2_url, aws_connect_kwargs) →
  truthy region = true →
  boto3_conn w module "client" "sts" region ec2_url aws_connect_kwargs = inr client →
  run (main w) =
    ((run (assume_role_policy client module)).1,
     [ EvConnInfo; EvBoto3Conn "client" "sts" region ec2_url aws_connect_kwargs ]
       ++ (run (assume_role_policy client module)).2).
Proof.
  intros Hmod Hboto Hconn Hregion Hclient.
  rewrite (main_configured w module region ec2_url aws_connect_kwargs client) by done.
  unfold policy_result, run. by rewrite !assume_role_policy_frame.
Qed.

Lemma main_ends_as_assume_role_policy_witness :
  run (main (sample_world required_only denying_client)) =
    ((run (assume_role_policy denying_client (sample_module required_only))).1,
     [ EvConnInfo; EvBoto3Conn "client" "sts" (PStr "eu-west-1") PNone ∅ ]
       ++ (run (assume_role_policy denying_client (sample_module required_only))).2).
Proof.
  apply (main_ends_as_assume_role_policy
           (sample_world required_only denying_client)
           (sample_module required_only) (PStr "eu-west-1") PNone ∅ denying_client);
    vm_compute; reflexivity.
Defined.

(** X10.  From the invocation to the report: with the module object,
    the region and the client established, a response that holds the
    six fields makes [main] end in [exit_json] with [changed] true and
    the six values, after the three calls to its collaborators. *)
Theorem main_reports_the_credentials
    w module region ec2_url aws_connect_kwargs client payload creds user
    access_key secret_key session_token expiration arn assume_role_id :
  AnsibleModule w (argument_spec w) = inr module →
  HAS_BOTO3 w = true →
  get_aws_connection_info w module = (region, ec2_url, aws_connect_kwargs) →
  truthy region = true →
  boto3_conn w module "client" "sts" region ec2_url aws_connect_kwargs = inr client →
  assume_role client (request_args module) = inr (PDict payload) →
  payload !! "Credentials" = Some (PDict creds) →
  creds !! "AccessKeyId" = Some access_key →
  creds !! "SecretAccessKey" = Some secret_key →
  creds !! "SessionToken" = Some session_token →
  creds !! "Expiration" = Some expiration →
  payload !! "AssumedRoleUser" = Some (PDict user) →
  user !! "Arn" = Some arn →
  user !! "AssumedRoleId" = Some assume_role_id →
  run (main w) =
    (Exit (ExitJson
       {[ "changed" := PBool true;
          "sts_creds" :=
            PDict {[ "access_key" := access_key;
                     "secret_key" := secret_key;
                     "session_token" := session_token;
                     "expiration" := expiration ]};
          "sts_user" :=
            PDict {[ "arn" := arn; "assume_role_id" := assume_role_id ]} ]}),
     [ EvConnInfo;
       EvBoto3Conn "client" "sts" region ec2_url aws_connect_kwargs;
       EvAssumeRole (request_args module) ]).
Proof.
  intros Hmod Hboto Hconn Hregion Hclient Hresponse **.
  rewrite (main_configured w module region ec2_url aws_connect_kwargs client) by done.
  by erewrite policy_result_success.
Qed.

Lemma main_reports_the_credentials_witness :
  run (main (sample_world long_duration sample_client)) =
    (Exit (ExitJson
       {[ "changed" := PBool true;
          "sts_creds" :=
            PDict {[ "access_key" := PStr "AK1";
                     "secret_key" := PStr "SK1";
                     "session_token" := PStr "TOK1";
                     "expiration" := PInt 1478131200 ]};
          "sts_user" :=
            PDict {[ "arn" := PStr "arn:aws:sts::123456789012:assumed-role/someRole/someRoleSession";
                     "assume_role_id" := PStr "AROAEXAMPLE:someRoleSession" ]} ]}),
     [ EvConnInfo;
       EvBoto3Conn "client" "sts" (PStr "eu-west-1") PNone ∅;
       EvAssumeRole (request_args (sample_module long_duration)) ]).
Proof.
  eapply (main_reports_the_credentials
            (sample_world long_duration sample_client)
            (sample_module long_duration) (PStr "eu-west-1") PNone ∅ sample_client);
    vm_compute; reflexivity.
Defined.

(** X11.  From the invocation to the end of the run, on a fault: with
    the module object, the region and the client established, a
    [ClientError] of [assume_role] makes [main] end in the [TypeError]
    that [fail_json] raises on the exception object of line 128, after
    the three calls to its collaborators.  The handler of [main] does
    not catch it, and no report is made. *)
Theorem main_fault_ends_in_TypeError
    w module region ec2_url aws_connect_kwargs client e :
  AnsibleModule w (argument_spec w) = inr module →
  HAS_BOTO3 w = true →
  get_aws_connection_info w module = (region, ec2_url, aws_connect_kwargs) →
  truthy region = true →
  boto3_conn w module "client" "sts" region ec2_url aws_connect_kwargs = inr client →
  assume_role client (request_args module) = inl (ExClientError e) →
  run (main w) =
    (Raise ExTypeError,
     [ EvConnInfo;
       EvBoto3Conn "client" "sts" region ec2_url aws_connect_kwargs;
       EvAssumeRole (request_args module) ]).
Proof.
  intros Hmod Hboto Hconn Hregion Hclient Hfault.
  rewrite (main_configured w module region ec2_url aws_connect_kwargs client) by done.
  by rewrite (policy_result_fault client module e).
Qed.

Lemma main_fault_ends_in_TypeError_witness :
  run (main (sample_world required_only denying_client)) =
    (Raise ExTypeError,
     [ EvConnInfo;
       EvBoto3Conn "client" "sts" (PStr "eu-west-1") PNone ∅;
       EvAssumeRole (request_args (sample_module required_only)) ]).
Proof.
  apply (main_fault_ends_in_TypeError
           (sample_world required_only denying_client)
           (sample_module required_only) (PStr "eu-west-1") PNone ∅ denying_client
           {| err_message := "AccessDenied" |});
    vm_compute; reflexivity.
Defined.

(** ** What the collaborators are called with *)

(** Every event of a run of [main] is one of three, and comes with the
    checks that precede it. *)
Lemma main_trace_events w ev :
  ev ∈ (run (main w)).2 →
  ∃ module region ec2_url aws_connect_kwargs,
    AnsibleModule w (argument_spec w) = inr module
    ∧ HAS_BOTO3 w = true
    ∧ get_aws_connection_info w module = (region, ec2_url, aws_connect_kwargs)
    ∧ (ev = EvConnInfo
       ∨ truthy region = true
         ∧ (ev = EvBoto3Conn "client" "sts" region ec2_url aws_connect_kwargs
            ∨ ev = EvAssumeRole (request_args module))).
Proof.
  unfold_main.
  destruct (AnsibleModule w (argument_spec w)) as [kw|module] eqn:Hmod;
    [by rewrite elem_of_nil|].
  destruct (HAS_BOTO3 w) eqn:Hboto; [|by rewrite elem_of_nil].
  destruct (get_aws_connection_info w module)
    as [[region ec2_url] aws_connect_kwargs] eqn:Hconn.
  assert (Hthree : ev ∈ [EvConnInfo;
                         EvBoto3Conn "client" "sts" region ec2_url aws_connect_kwargs;
                         EvAssumeRole (request_args module)] →
            truthy region = true →
            ev = EvConnInfo
            ∨ truthy region = true
              ∧ (ev = EvBoto3Conn "client" "sts" region ec2_url aws_connect_kwargs
                 ∨ ev = EvAssumeRole (request_args module))).
  { rewrite !elem_of_cons, elem_of_nil. intros [?|[?|[?|[]]]] ?; auto. }
  intros Hin. exists module, region, ec2_url, aws_connect_kwargs.
  split_and!; try done.
  destruct (truthy region) eqn:Hregion.
  - apply Hthree; [|done]. revert Hin.
    destruct (boto3_conn w module "client" "sts" region ec2_url aws_connect_kwargs)
      as [x|client].
    + destruct x; rewrite ?fail_json_result_str; simpl;
        rewrite !elem_of_cons, !elem_of_nil; tauto.
    + rewrite assume_role_policy_frame.
      by destruct (policy_result client module) as [a|o|[e| | |]];
        rewrite ?fail_json_result_exc.
  - revert Hin. simpl. rewrite elem_of_cons, elem_of_nil. intros [->|[]]. by left.
Qed.

(** X12.  Whenever a run of [main] builds a client, it asks for a
    [client] of the [sts] service, with the region, the endpoint and the
    connection arguments that [get_aws_connection_info] returned for the
    module object, and the region is not empty.  Whenever it calls
    [assume_role], the request is the one built from that module
    object. *)
Theorem collaborators_are_called_with w :
  (∀ conn_type resource region endpoint kwargs,
     EvBoto3Conn conn_type resource region endpoint kwargs ∈ (run (main w)).2 →
     conn_type = "client" ∧ resource = "sts" ∧ truthy region = true
     ∧ ∃ module, AnsibleModule w (argument_spec w) = inr module
                 ∧ get_aws_connection_info w module = (region, endpoint, kwargs))
  ∧ (∀ args,
       EvAssumeRole args ∈ (run (main w)).2 →
       HAS_BOTO3 w = true
       ∧ ∃ module, AnsibleModule w (argument_spec w) = inr module
                   ∧ args = request_args module).
Proof.
  split.
  - intros conn_type resource region endpoint kwargs Hin.
    destruct (main_trace_events w _ Hin)
      as (module & region' & ec2_url & kwargs' & Hmod & _ & Hconn & [?|[? [?|?]]]);
      simplify_eq; eauto 10.
  - intros args Hin.
    destruct (main_trace_events w _ Hin)
      as (module & region' & ec2_url & kwargs' & Hmod & Hboto & Hconn & [?|[? [?|?]]]);
      simplify_eq; eauto 10.
Qed.
